(** * Abstract Factory (src/index.ts): a shallow embedding and its properties

    The program declares three interfaces ([FabricaAbstracta],
    [ProductoAbstractoA], [ProductoAbstractoB]), two classes for each of them,
    a client function [codigoCliente] and a module-scope script that calls it
    with one factory of each class.

    Modelling decisions.
    - A string is the sequence of bytes that [console.log] sends to standard
      output (UTF-8), so the accented letters of the two headers take two
      bytes each; concatenation of well-formed strings commutes with that
      encoding.
    - The classes have no fields and no method reads [this]: an object is the
      name of the class that constructed it (what [instanceof] and
      [constructor.name] observe) together with its method table.  [new C()]
      is the record named [C].
    - A method whose TypeScript type is [(): string] is a function into
      [string]; it has no access to the console.
    - The only effect of the program is [console.log].  The console is the
      list of lines written so far, threaded through a small state monad.
    - Module [Ejecucion] embeds the same code a second time with every call
      as a computation that may write to the console or throw, as a call in
      JavaScript may.  It is where the statements on purity and on the
      absence of failure are made; the first embedding gives the values. *)

From Stdlib Require Import String Ascii List Bool Arith Lia.
Import ListNotations.
Local Open Scope string_scope.

(** ** The console *)

Module Consola.

(** Lines written by [console.log], oldest first. *)
Definition t := list string.

Definition IO (A : Type) : Type := t -> A * t.

Definition ret {A : Type} (a : A) : IO A := fun c => (a, c).

Definition bind {A B : Type} (m : IO A) (k : A -> IO B) : IO B :=
  fun c => let (a, c') := m c in k a c'.

(** [console.log(s)]: one more line at the end of the output. *)
Definition console_log (s : string) : IO unit := fun c => (tt, (c ++ [s])%list).

(** The console after running [m] from [c]. *)
Definition exec {A : Type} (m : IO A) (c : t) : t := snd (m c).

(** The text on standard output: every line followed by a line feed. *)
Definition salto : string := String (ascii_of_nat 10) EmptyString.

Fixpoint texto (c : t) : string :=
  match c with
  | [] => EmptyString
  | l :: c' => l ++ salto ++ texto c'
  end.

End Consola.

Import Consola.

Notation "m ;; k" := (bind m (fun _ => k))
  (at level 61, right associativity).

(** ** Interfaces *)

Record ProductoAbstractoA : Type := {
  claseA : string;
  funcionUtilA : unit -> string
}.

Record ProductoAbstractoB : Type := {
  claseB : string;
  funcionUtilB : unit -> string;
  otraFuncionUtilB : ProductoAbstractoA -> string
}.

Record FabricaAbstracta : Type := {
  claseF : string;
  crearProductoA : unit -> ProductoAbstractoA;
  crearProductoB : unit -> ProductoAbstractoB
}.

(** [o instanceof C], for the objects of each interface. *)
Definition instanceofA (o C : ProductoAbstractoA) : bool :=
  String.eqb (claseA o) (claseA C).

Definition instanceofB (o C : ProductoAbstractoB) : bool :=
  String.eqb (claseB o) (claseB C).

(** ** Product classes *)

Definition ProductoConcretoA1 : ProductoAbstractoA := {|
  claseA := "ProductoConcretoA1";
  funcionUtilA := fun _ => "El resultado del producto A1."
|}.

Definition ProductoConcretoA2 : ProductoAbstractoA := {|
  claseA := "ProductoConcretoA2";
  funcionUtilA := fun _ => "El resultado del producto A2."
|}.

Definition ProductoConcretoB1 : ProductoAbstractoB := {|
  claseB := "ProductoConcretoB1";
  funcionUtilB := fun _ => "El resultado del producto B1.";
  otraFuncionUtilB := fun colaborador =>
    let resultado := funcionUtilA colaborador tt in
    "El resultado de B1 colaborando con el (" ++ resultado ++ ")"
|}.

Definition ProductoConcretoB2 : ProductoAbstractoB := {|
  claseB := "ProductoConcretoB2";
  funcionUtilB := fun _ => "El resultado del producto B2.";
  otraFuncionUtilB := fun colaborador =>
    let resultado := funcionUtilA colaborador tt in
    "El resultado de B2 colaborando con el (" ++ resultado ++ ")"
|}.

(** ** Factory classes *)

Definition FabricaConcreta1 : FabricaAbstracta := {|
  claseF := "FabricaConcreta1";
  crearProductoA := fun _ => ProductoConcretoA1;
  crearProductoB := fun _ => ProductoConcretoB1
|}.

Definition FabricaConcreta2 : FabricaAbstracta := {|
  claseF := "FabricaConcreta2";
  crearProductoA := fun _ => ProductoConcretoA2;
  crearProductoB := fun _ => ProductoConcretoB2
|}.

(** ** Client code and the module-scope script *)

Definition codigoCliente (fabrica : FabricaAbstracta) : IO unit :=
  let productoA := crearProductoA fabrica tt in
  let productoB := crearProductoB fabrica tt in
  console_log (funcionUtilB productoB tt) ;;
  console_log (otraFuncionUtilB productoB productoA).

Definition programa : IO unit :=
  console_log "Cliente: Probando el código del cliente con el primer tipo de fábrica..." ;;
  codigoCliente FabricaConcreta1 ;;
  console_log EmptyString ;;
  console_log "Cliente: Probando el mismo código del cliente con el segundo tipo de fábrica..." ;;
  codigoCliente FabricaConcreta2.

(** The lines that a computation adds to a console that already holds [c]. *)
Definition salida {A : Type} (m : IO A) (c : Consola.t) : list string :=
  skipn (List.length c) (exec m c).

(** ** Variants

    The variant number is part of every class name; these tables index the
    classes of the program by it. *)

Inductive Variante : Type := V1 | V2.

Definition Variante_eqb (n m : Variante) : bool :=
  match n, m with
  | V1, V1 | V2, V2 => true
  | _, _ => false
  end.

Definition productoConcretoA (n : Variante) : ProductoAbstractoA :=
  match n with V1 => ProductoConcretoA1 | V2 => ProductoConcretoA2 end.

Definition productoConcretoB (n : Variante) : ProductoAbstractoB :=
  match n with V1 => ProductoConcretoB1 | V2 => ProductoConcretoB2 end.

Definition fabricaConcreta (n : Variante) : FabricaAbstracta :=
  match n with V1 => FabricaConcreta1 | V2 => FabricaConcreta2 end.

(** ** Other implementers of the interfaces

    These classes are not in the program.  The interfaces are open, and the
    statements about every implementer are exercised on them. *)

(** A product A of a third class that answers what [ProductoConcretoA1]
    answers. *)
Definition ProductoImitadorA : ProductoAbstractoA := {|
  claseA := "ProductoImitadorA";
  funcionUtilA := fun _ => "El resultado del producto A1."
|}.

(** A factory that pairs product A of variant [n] with product B of variant
    [m]; for [n <> m] it breaks the pairing of the concrete factories. *)
Definition FabricaMixta (n m : Variante) : FabricaAbstracta := {|
  claseF := "FabricaMixta";
  crearProductoA := fun _ => productoConcretoA n;
  crearProductoB := fun _ => productoConcretoB m
|}.

(** ** The program with effects and exceptions

    Every method call is a computation on the console that ends normally with
    a value or ends with a thrown exception.  [bind] is sequencing: there is
    no handler in the program, so an exception ends whatever follows. *)

Module Ejecucion.

Inductive Resultado (A : Type) : Type :=
| Normal (a : A)
| Excepcion (e : string).

Arguments Normal {A} a.
Arguments Excepcion {A} e.

Definition M (A : Type) : Type := Consola.t -> Resultado A * Consola.t.

Definition ret {A : Type} (a : A) : M A := fun c => (Normal a, c).

Definition lanzar {A : Type} (e : string) : M A := fun c => (Excepcion e, c).

Definition bind {A B : Type} (m : M A) (k : A -> M B) : M B :=
  fun c =>
    match m c with
    | (Normal a, c') => k a c'
    | (Excepcion e, c') => (Excepcion e, c')
    end.

Definition console_log (s : string) : M unit :=
  fun c => (Normal tt, (c ++ [s])%list).

Notation "m >>= k" := (bind m k) (at level 50, left associativity).

Record ProductoAbstractoA : Type := {
  claseA : string;
  funcionUtilA : unit -> M string
}.

Record ProductoAbstractoB : Type := {
  claseB : string;
  funcionUtilB : unit -> M string;
  otraFuncionUtilB : ProductoAbstractoA -> M string
}.

Record FabricaAbstracta : Type := {
  claseF : string;
  crearProductoA : unit -> M ProductoAbstractoA;
  crearProductoB : unit -> M ProductoAbstractoB
}.

Definition ProductoConcretoA1 : ProductoAbstractoA := {|
  claseA := "ProductoConcretoA1";
  funcionUtilA := fun _ => ret "El resultado del producto A1."
|}.

Definition ProductoConcretoA2 : ProductoAbstractoA := {|
  claseA := "ProductoConcretoA2";
  funcionUtilA := fun _ => ret "El resultado del producto A2."
|}.

Definition ProductoConcretoB1 : ProductoAbstractoB := {|
  claseB := "ProductoConcretoB1";
  funcionUtilB := fun _ => ret "El resultado del producto B1.";
  otraFuncionUtilB := fun colaborador =>
    funcionUtilA colaborador tt >>= fun resultado =>
    ret ("El resultado de B1 colaborando con el (" ++ resultado ++ ")")
|}.

Definition ProductoConcretoB2 : ProductoAbstractoB := {|
  claseB := "ProductoConcretoB2";
  funcionUtilB := fun _ => ret "El resultado del producto B2.";
  otraFuncionUtilB := fun colaborador =>
    funcionUtilA colaborador tt >>= fun resultado =>
    ret ("El resultado de B2 colaborando con el (" ++ resultado ++ ")")
|}.

Definition FabricaConcreta1 : FabricaAbstracta := {|
  claseF := "FabricaConcreta1";
  crearProductoA := fun _ => ret ProductoConcretoA1;
  crearProductoB := fun _ => ret ProductoConcretoB1
|}.

Definition FabricaConcreta2 : FabricaAbstracta := {|
  claseF := "FabricaConcreta2";
  crearProductoA := fun _ => ret ProductoConcretoA2;
  crearProductoB := fun _ => ret ProductoConcretoB2
|}.

Definition codigoCliente (fabrica : FabricaAbstracta) : M unit :=
  crearProductoA fabrica tt >>= fun productoA =>
  crearProductoB fabrica tt >>= fun productoB =>
  funcionUtilB productoB tt >>= fun linea1 =>
  console_log linea1 >>= fun _ =>
  otraFuncionUtilB productoB productoA >>= fun linea2 =>
  console_log linea2.

Definition programa : M unit :=
  console_log "Cliente: Probando el código del cliente con el primer tipo de fábrica..." >>= fun _ =>
  codigoCliente FabricaConcreta1 >>= fun _ =>
  console_log EmptyString >>= fun _ =>
  console_log "Cliente: Probando el mismo código del cliente con el segundo tipo de fábrica..." >>= fun _ =>
  codigoCliente FabricaConcreta2.

Definition productoConcretoA (n : Variante) : ProductoAbstractoA :=
  match n with V1 => ProductoConcretoA1 | V2 => ProductoConcretoA2 end.

Definition productoConcretoB (n : Variante) : ProductoAbstractoB :=
  match n with V1 => ProductoConcretoB1 | V2 => ProductoConcretoB2 end.

Definition fabricaConcreta (n : Variante) : FabricaAbstracta :=
  match n with V1 => FabricaConcreta1 | V2 => FabricaConcreta2 end.

(** [m] ends normally with [v] from every console and leaves the console as
    it found it. *)
Definition devuelve {A : Type} (m : M A) (v : A) : Prop :=
  forall c : Consola.t, m c = (Normal v, c).

(** A pure computation: total, without effect, with one value for all
    consoles. *)
Definition pura {A : Type} (m : M A) : Prop := exists v : A, devuelve m v.

(** [m] ends normally from every console and its one effect is to write the
    lines [l] after what the console held. *)
Definition escribe (m : M unit) (l : list string) : Prop :=
  forall c : Consola.t, m c = (Normal tt, (c ++ l)%list).

(** A product A that is not in the program: its method throws. *)
Definition ProductoAveriadoA : ProductoAbstractoA := {|
  claseA := "ProductoAveriadoA";
  funcionUtilA := fun _ => lanzar "averiado"
|}.

End Ejecucion.

(** * Properties *)

(** ** The console monad *)

Section LeyesConsola.

Context {A B : Type}.

Lemma bind_run (m : IO A) (k : A -> IO B) (c : Consola.t) :
  bind m k c = k (fst (m c)) (snd (m c)).
Proof. unfold bind. destruct (m c); reflexivity. Qed.

Lemma exec_bind (m : IO A) (k : A -> IO B) (c : Consola.t) :
  exec (bind m k) c = exec (k (fst (m c))) (exec m c).
Proof. unfold exec. rewrite bind_run. reflexivity. Qed.

End LeyesConsola.

Lemma exec_console_log (s : string) (c : Consola.t) :
  exec (console_log s) c = (c ++ [s])%list.
Proof. reflexivity. Qed.

Lemma skipn_length_app {X : Type} (c l : list X) :
  skipn (List.length c) (c ++ l)%list = l.
Proof. induction c as [| x c IH]; simpl; [reflexivity | exact IH]. Qed.

(** What a computation that only appends [l] prints, wherever it starts. *)
Lemma salida_app {A : Type} (m : IO A) (c : Consola.t) (l : list string) :
  exec m c = (c ++ l)%list -> salida m c = l.
Proof. intros E. unfold salida. rewrite E. apply skipn_length_app. Qed.

(** ** The client code *)

(** The client returns normally and adds two lines to the console: the
    answer of the created B product, then its collaboration with the created
    A product. *)
Lemma codigoCliente_run (fabrica : FabricaAbstracta) (c : Consola.t) :
  codigoCliente fabrica c =
  (tt, (c ++ [funcionUtilB (crearProductoB fabrica tt) tt;
              otraFuncionUtilB (crearProductoB fabrica tt)
                               (crearProductoA fabrica tt)])%list).
Proof.
  unfold codigoCliente, bind, console_log.
  rewrite <- app_assoc. reflexivity.
Qed.

Lemma codigoCliente_exec (fabrica : FabricaAbstracta) (c : Consola.t) :
  exec (codigoCliente fabrica) c =
  (c ++ [funcionUtilB (crearProductoB fabrica tt) tt;
         otraFuncionUtilB (crearProductoB fabrica tt)
                          (crearProductoA fabrica tt)])%list.
Proof. unfold exec. rewrite codigoCliente_run. reflexivity. Qed.

Lemma codigoCliente_salida (fabrica : FabricaAbstracta) (c : Consola.t) :
  salida (codigoCliente fabrica) c =
  [funcionUtilB (crearProductoB fabrica tt) tt;
   otraFuncionUtilB (crearProductoB fabrica tt) (crearProductoA fabrica tt)].
Proof. apply salida_app, codigoCliente_exec. Qed.

(** ** The script *)

(** C1, as the code has it.  From any console [c] the script returns
    normally and adds exactly seven lines, in this order: the first header,
    the answer of B1, the collaboration of B1 with A1, an empty line, the
    second header, the answer of B2 and the collaboration of B2 with A2.  The
    texts are the Spanish literals of the source.  Started on an empty
    console, standard output holds those seven lines, each ended by a line
    feed. *)
Theorem programa_salida :
  (forall c : Consola.t,
     programa c =
     (tt,
      (c ++
       ["Cliente: Probando el código del cliente con el primer tipo de fábrica...";
        "El resultado del producto B1.";
        "El resultado de B1 colaborando con el (El resultado del producto A1.)";
        EmptyString;
        "Cliente: Probando el mismo código del cliente con el segundo tipo de fábrica...";
        "El resultado del producto B2.";
        "El resultado de B2 colaborando con el (El resultado del producto A2.)"])%list))
  /\ texto (exec programa []) =
     "Cliente: Probando el código del cliente con el primer tipo de fábrica..." ++ salto ++
     "El resultado del producto B1." ++ salto ++
     "El resultado de B1 colaborando con el (El resultado del producto A1.)" ++ salto ++
     salto ++
     "Cliente: Probando el mismo código del cliente con el segundo tipo de fábrica..." ++ salto ++
     "El resultado del producto B2." ++ salto ++
     "El resultado de B2 colaborando con el (El resultado del producto A2.)" ++ salto.
Proof.
  split.
  - intros c. unfold programa.
    rewrite !bind_run, !codigoCliente_run. simpl.
    unfold console_log. simpl.
    rewrite <- !app_assoc. reflexivity.
  - vm_compute. reflexivity.
Qed.

(** C1, as the spec words it, fails: the lines of spec section 6 are not the
    lines the script writes. *)
Lemma programa_salida_spec_falla :
  exec programa [] <>
  ["Client: Testing client code with the first factory type...";
   "result of product B1.";
   "result of B1 collaborating with the (result of product A1.)";
   EmptyString;
   "Client: Testing the same client code with the second factory type...";
   "result of product B2.";
   "result of B2 collaborating with the (result of product A2.)"].
Proof. vm_compute. intros H. discriminate H. Qed.

(** ** Products of family A *)

(** C2, as the code has it.  [funcionUtilA] takes no argument and answers a
    fixed literal: "El resultado del producto A1." in [ProductoConcretoA1] and
    "El resultado del producto A2." in [ProductoConcretoA2].  The two literals
    differ.  The method is a function into [string]: it cannot touch the
    console. *)
Theorem funcionUtilA_literales :
  funcionUtilA ProductoConcretoA1 tt = "El resultado del producto A1."
  /\ funcionUtilA ProductoConcretoA2 tt = "El resultado del producto A2."
  /\ funcionUtilA ProductoConcretoA1 tt <> funcionUtilA ProductoConcretoA2 tt.
Proof.
  repeat split.
  simpl. intros H. inversion H.
Qed.

(** C2, as the spec words it, fails on the first variant: the answer of
    [ProductoConcretoA1] is not the English literal. *)
Lemma funcionUtilA_spec_falla :
  funcionUtilA ProductoConcretoA1 tt <> "result of product A1.".
Proof. simpl. discriminate. Qed.

(** ** Products of family B *)

(** C3, as the code has it.  [funcionUtilB] answers
    "El resultado del producto B1." in [ProductoConcretoB1] and
    "El resultado del producto B2." in [ProductoConcretoB2]. *)
Theorem funcionUtilB_literales :
  funcionUtilB ProductoConcretoB1 tt = "El resultado del producto B1."
  /\ funcionUtilB ProductoConcretoB2 tt = "El resultado del producto B2.".
Proof. split; reflexivity. Qed.

(** C3, as the spec words it, fails: the answer of [ProductoConcretoB1] is
    not the English literal. *)
Lemma funcionUtilB_spec_falla :
  funcionUtilB ProductoConcretoB1 tt <> "result of product B1.".
Proof. simpl. discriminate. Qed.

(** The template of each B class, for every collaborator. *)
Lemma otraFuncionUtilB_B1 (colaborador : ProductoAbstractoA) :
  otraFuncionUtilB ProductoConcretoB1 colaborador =
  "El resultado de B1 colaborando con el (" ++ funcionUtilA colaborador tt ++ ")".
Proof. reflexivity. Qed.

Lemma otraFuncionUtilB_B2 (colaborador : ProductoAbstractoA) :
  otraFuncionUtilB ProductoConcretoB2 colaborador =
  "El resultado de B2 colaborando con el (" ++ funcionUtilA colaborador tt ++ ")".
Proof. reflexivity. Qed.

(** C4, as the code has it.  [ProductoConcretoB1] collaborating with an
    instance of [ProductoConcretoA1] answers
    "El resultado de B1 colaborando con el (El resultado del producto A1.)". *)
Theorem otraFuncionUtilB_B1_A1 :
  otraFuncionUtilB ProductoConcretoB1 ProductoConcretoA1 =
  "El resultado de B1 colaborando con el (El resultado del producto A1.)".
Proof. rewrite otraFuncionUtilB_B1. reflexivity. Qed.

(** C4, as the spec words it, fails: the answer is not the English
    sentence. *)
Lemma otraFuncionUtilB_B1_A1_spec_falla :
  otraFuncionUtilB ProductoConcretoB1 ProductoConcretoA1 <>
  "result of B1 collaborating with the (result of product A1.)".
Proof. rewrite otraFuncionUtilB_B1. simpl. discriminate. Qed.

(** C5, as the code has it.  For every implementer [a] of
    [ProductoAbstractoA], of whatever class, the collaboration of a B product of
    the program returns the template of that B class around the answer of
    [a]: "El resultado de B1 colaborando con el (" or
    "El resultado de B2 colaborando con el (", then [a.funcionUtilA()], then
    ")".  No class is checked.  In particular [ProductoConcretoB1] with an
    instance of [ProductoConcretoA2] answers
    "El resultado de B1 colaborando con el (El resultado del producto A2.)". *)
Theorem otraFuncionUtilB_cualquier_colaborador :
  (forall (n : Variante) (a : ProductoAbstractoA),
     otraFuncionUtilB (productoConcretoB n) a =
     (match n with
      | V1 => "El resultado de B1 colaborando con el ("
      | V2 => "El resultado de B2 colaborando con el ("
      end) ++ funcionUtilA a tt ++ ")")
  /\ otraFuncionUtilB ProductoConcretoB1 ProductoConcretoA2 =
     "El resultado de B1 colaborando con el (El resultado del producto A2.)".
Proof.
  split.
  - intros [|] a.
    + apply otraFuncionUtilB_B1.
    + apply otraFuncionUtilB_B2.
  - reflexivity.
Qed.

(** C5, as the spec words it, fails on its own example: B1 with an A2
    collaborator does not answer the English sentence. *)
Lemma otraFuncionUtilB_B1_A2_spec_falla :
  otraFuncionUtilB ProductoConcretoB1 ProductoConcretoA2 <>
  "result of B1 collaborating with the (result of product A2.)".
Proof. rewrite otraFuncionUtilB_B1. simpl. discriminate. Qed.

(** C9.  The collaboration of either B class sees its collaborator only
    through the answer of [funcionUtilA]: two collaborators with the same
    answer, of the same class or not, give the same collaboration. *)
Theorem otraFuncionUtilB_solo_depende_de_funcionUtilA
    (n : Variante) (a1 a2 : ProductoAbstractoA)
    (H : funcionUtilA a1 tt = funcionUtilA a2 tt) :
  otraFuncionUtilB (productoConcretoB n) a1 =
  otraFuncionUtilB (productoConcretoB n) a2.
Proof.
  destruct n; simpl; rewrite H; reflexivity.
Qed.

(** An instance of C9 with collaborators of two different classes. *)
Lemma otraFuncionUtilB_solo_depende_de_funcionUtilA_testigo :
  instanceofA ProductoImitadorA ProductoConcretoA1 = false
  /\ funcionUtilA ProductoConcretoA1 tt = funcionUtilA ProductoImitadorA tt
  /\ otraFuncionUtilB (productoConcretoB V1) ProductoConcretoA1 =
     otraFuncionUtilB (productoConcretoB V1) ProductoImitadorA.
Proof.
  split; [reflexivity | split; [reflexivity |]].
  apply (otraFuncionUtilB_solo_depende_de_funcionUtilA
           V1 ProductoConcretoA1 ProductoImitadorA).
  reflexivity.
Defined.

(** ** Factories *)

(** C6.  The factory of variant [n] creates the A product of variant [n] and
    the B product of variant [n]; the created objects are instances of the
    classes of variant [m] exactly when [m] is [n]. *)
Theorem fabricaConcreta_empareja (n : Variante) :
  crearProductoA (fabricaConcreta n) tt = productoConcretoA n
  /\ crearProductoB (fabricaConcreta n) tt = productoConcretoB n
  /\ (forall m : Variante,
        instanceofA (crearProductoA (fabricaConcreta n) tt) (productoConcretoA m)
        = Variante_eqb n m)
  /\ (forall m : Variante,
        instanceofB (crearProductoB (fabricaConcreta n) tt) (productoConcretoB m)
        = Variante_eqb n m).
Proof.
  destruct n; (split; [reflexivity | split; [reflexivity |]]);
    split; intros m; destruct m; reflexivity.
Qed.

(** ** The client code on every factory *)

(** C10.  The client takes every implementer of [FabricaAbstracta].  It
    returns normally and adds exactly two lines to the console: the answer of
    [funcionUtilB] of the created B product, then the collaboration of that B
    product with the created A product.  So it is on a factory that pairs
    variant [n] of A with variant [m] of B, and there the answer of the A
    product is none of the printed lines. *)
Theorem codigoCliente_cualquier_fabrica :
  (forall (fabrica : FabricaAbstracta) (c : Consola.t),
     codigoCliente fabrica c =
     (tt, (c ++ [funcionUtilB (crearProductoB fabrica tt) tt;
                 otraFuncionUtilB (crearProductoB fabrica tt)
                                  (crearProductoA fabrica tt)])%list))
  /\ (forall (n m : Variante) (c : Consola.t),
        salida (codigoCliente (FabricaMixta n m)) c =
        [funcionUtilB (productoConcretoB m) tt;
         otraFuncionUtilB (productoConcretoB m) (productoConcretoA n)]
        /\ ~ In (funcionUtilA (productoConcretoA n) tt)
                (salida (codigoCliente (FabricaMixta n m)) c)).
Proof.
  split.
  - exact codigoCliente_run.
  - intros n m c. rewrite codigoCliente_salida. split.
    + reflexivity.
    + destruct n, m; simpl; intros [H | [H | []]]; discriminate H.
Qed.

(** C7.  Two calls of the client in sequence with the same factory: the
    second call, which starts on the console the first one left, prints what
    the first one printed, and the console ends with that output twice after
    its initial contents. *)
Theorem codigoCliente_idempotente (fabrica : FabricaAbstracta) (c : Consola.t) :
  salida (codigoCliente fabrica) (exec (codigoCliente fabrica) c) =
  salida (codigoCliente fabrica) c
  /\ exec (codigoCliente fabrica ;; codigoCliente fabrica) c =
     (c ++ salida (codigoCliente fabrica) c
        ++ salida (codigoCliente fabrica) c)%list.
Proof.
  split.
  - now rewrite !codigoCliente_salida.
  - rewrite exec_bind, !codigoCliente_exec, codigoCliente_salida.
    now rewrite <- app_assoc.
Qed.

(** ** Purity and absence of failure *)

Lemma bind_devuelve {A B : Type}
    (m : Ejecucion.M A) (k : A -> Ejecucion.M B) (v : A) (c : Consola.t) :
  Ejecucion.devuelve m v -> Ejecucion.bind m k c = k v c.
Proof. intros H. unfold Ejecucion.bind. rewrite (H c). reflexivity. Qed.

(** An exception ends the computation where it is thrown: the continuation
    does not run. *)
Lemma bind_excepcion {A B : Type}
    (m : Ejecucion.M A) (k : A -> Ejecucion.M B)
    (e : string) (c c' : Consola.t) :
  m c = (Ejecucion.Excepcion e, c') ->
  Ejecucion.bind m k c = (Ejecucion.Excepcion e, c').
Proof. intros H. unfold Ejecucion.bind. rewrite H. reflexivity. Qed.

(** Neither B class handles what its collaborator throws: the purity of the
    collaboration needs the purity of the collaborator. *)
Lemma otraFuncionUtilB_no_pura_con_averiado (n : Variante) :
  ~ Ejecucion.pura
      (Ejecucion.otraFuncionUtilB (Ejecucion.productoConcretoB n)
                                  Ejecucion.ProductoAveriadoA).
Proof.
  intros [v H]. specialize (H []). destruct n; vm_compute in H; discriminate H.
Qed.

(** C8, as the code has it.  No operation of the program throws, and each has
    one outcome whatever the console holds.  [funcionUtilA], [funcionUtilB],
    [crearProductoA] and [crearProductoB] of the classes of the program are
    pure: they end normally with the value of the first embedding and leave
    the console untouched.  [otraFuncionUtilB] of either B class is pure on
    every collaborator whose [funcionUtilA] is, and returns its template
    around that answer.  The client is total but not pure: on every factory
    whose operations, and those of its products, end normally without effect,
    it ends normally and its one effect is to write their two answers; so it
    does on the two factories of the program.  The script ends normally and
    its one effect is to write its seven lines. *)
Theorem operaciones_sin_fallo :
  (forall n : Variante,
     Ejecucion.devuelve
       (Ejecucion.funcionUtilA (Ejecucion.productoConcretoA n) tt)
       (funcionUtilA (productoConcretoA n) tt))
  /\ (forall n : Variante,
        Ejecucion.devuelve
          (Ejecucion.funcionUtilB (Ejecucion.productoConcretoB n) tt)
          (funcionUtilB (productoConcretoB n) tt))
  /\ (forall (n : Variante) (a : Ejecucion.ProductoAbstractoA) (s : string),
        Ejecucion.devuelve (Ejecucion.funcionUtilA a tt) s ->
        Ejecucion.devuelve
          (Ejecucion.otraFuncionUtilB (Ejecucion.productoConcretoB n) a)
          ((match n with
            | V1 => "El resultado de B1 colaborando con el ("
            | V2 => "El resultado de B2 colaborando con el ("
            end) ++ s ++ ")"))
  /\ (forall n : Variante,
        Ejecucion.devuelve
          (Ejecucion.crearProductoA (Ejecucion.fabricaConcreta n) tt)
          (Ejecucion.productoConcretoA n))
  /\ (forall n : Variante,
        Ejecucion.devuelve
          (Ejecucion.crearProductoB (Ejecucion.fabricaConcreta n) tt)
          (Ejecucion.productoConcretoB n))
  /\ (forall (fabrica : Ejecucion.FabricaAbstracta)
             (pa : Ejecucion.ProductoAbstractoA)
             (pb : Ejecucion.ProductoAbstractoB) (s1 s2 : string),
        Ejecucion.devuelve (Ejecucion.crearProductoA fabrica tt) pa ->
        Ejecucion.devuelve (Ejecucion.crearProductoB fabrica tt) pb ->
        Ejecucion.devuelve (Ejecucion.funcionUtilB pb tt) s1 ->
        Ejecucion.devuelve (Ejecucion.otraFuncionUtilB pb pa) s2 ->
        Ejecucion.escribe (Ejecucion.codigoCliente fabrica) [s1; s2])
  /\ (forall n : Variante,
        Ejecucion.escribe
          (Ejecucion.codigoCliente (Ejecucion.fabricaConcreta n))
          (salida (codigoCliente (fabricaConcreta n)) []))
  /\ Ejecucion.escribe Ejecucion.programa (salida programa []).
Proof.
  assert (colabora :
    forall (n : Variante) (a : Ejecucion.ProductoAbstractoA) (s : string),
      Ejecucion.devuelve (Ejecucion.funcionUtilA a tt) s ->
      Ejecucion.devuelve
        (Ejecucion.otraFuncionUtilB (Ejecucion.productoConcretoB n) a)
        ((match n with
          | V1 => "El resultado de B1 colaborando con el ("
          | V2 => "El resultado de B2 colaborando con el ("
          end) ++ s ++ ")")).
  { intros n a s Ha c. destruct n; simpl;
      rewrite (bind_devuelve _ _ s c Ha); reflexivity. }
  assert (cliente :
    forall (fabrica : Ejecucion.FabricaAbstracta)
           (pa : Ejecucion.ProductoAbstractoA)
           (pb : Ejecucion.ProductoAbstractoB) (s1 s2 : string),
      Ejecucion.devuelve (Ejecucion.crearProductoA fabrica tt) pa ->
      Ejecucion.devuelve (Ejecucion.crearProductoB fabrica tt) pb ->
      Ejecucion.devuelve (Ejecucion.funcionUtilB pb tt) s1 ->
      Ejecucion.devuelve (Ejecucion.otraFuncionUtilB pb pa) s2 ->
      Ejecucion.escribe (Ejecucion.codigoCliente fabrica) [s1; s2]).
  { intros fabrica pa pb s1 s2 Ha Hb H1 H2 c. unfold Ejecucion.codigoCliente.
    rewrite (bind_devuelve _ _ pa c Ha), (bind_devuelve _ _ pb c Hb),
            (bind_devuelve _ _ s1 c H1).
    unfold Ejecucion.bind at 1. unfold Ejecucion.console_log at 1.
    rewrite (bind_devuelve _ _ s2 _ H2).
    unfold Ejecucion.console_log. now rewrite <- app_assoc. }
  assert (clienteN :
    forall n : Variante,
      Ejecucion.escribe
        (Ejecucion.codigoCliente (Ejecucion.fabricaConcreta n))
        (salida (codigoCliente (fabricaConcreta n)) [])).
  { intros n. rewrite codigoCliente_salida.
    apply (cliente _ (Ejecucion.productoConcretoA n)
                     (Ejecucion.productoConcretoB n)).
    - destruct n; intros c; reflexivity.
    - destruct n; intros c; reflexivity.
    - destruct n; intros c; reflexivity.
    - destruct n; intros c; reflexivity. }
  repeat split;
    try (intros n; destruct n; intros c; reflexivity);
    try assumption.
  intros c. unfold Ejecucion.programa, Ejecucion.bind at 1 2 3 4.
  unfold Ejecucion.console_log at 1.
  rewrite (clienteN V1 _).
  unfold Ejecucion.console_log at 1 2.
  rewrite (clienteN V2 _).
  rewrite <- !app_assoc. reflexivity.
Qed.

(** An instance of C8: a collaborator of the other variant, and the client on
    the second factory. *)
Lemma operaciones_sin_fallo_testigo :
  Ejecucion.devuelve (Ejecucion.funcionUtilA Ejecucion.ProductoConcretoA2 tt)
                     "El resultado del producto A2."
  /\ Ejecucion.devuelve
       (Ejecucion.otraFuncionUtilB (Ejecucion.productoConcretoB V1)
                                   Ejecucion.ProductoConcretoA2)
       ("El resultado de B1 colaborando con el ("
          ++ "El resultado del producto A2." ++ ")")
  /\ Ejecucion.escribe
       (Ejecucion.codigoCliente Ejecucion.FabricaConcreta2)
       ["El resultado del producto B2.";
        "El resultado de B2 colaborando con el (El resultado del producto A2.)"].
Proof.
  destruct operaciones_sin_fallo as (HA & _ & HC & _ & _ & HK & _ & _).
  split; [exact (HA V2) | split].
  - exact (HC V1 Ejecucion.ProductoConcretoA2 _ (HA V2)).
  - apply (HK Ejecucion.FabricaConcreta2
              Ejecucion.ProductoConcretoA2 Ejecucion.ProductoConcretoB2).
    + intros c. reflexivity.
    + intros c. reflexivity.
    + intros c. reflexivity.
    + exact (HC V2 Ejecucion.ProductoConcretoA2 _ (HA V2)).
Defined.

(** C8, as the spec words it, fails on the client: it is not a pure
    operation, it writes to the console. *)
Lemma codigoCliente_no_pura :
  ~ Ejecucion.pura (Ejecucion.codigoCliente Ejecucion.FabricaConcreta1).
Proof.
  intros [v H]. specialize (H []). vm_compute in H. discriminate H.
Qed.

(** * Further properties of the collaboration template *)

(** ** Strings *)

Lemma length_append (s t : string) :
  String.length (s ++ t) = String.length s + String.length t.
Proof. induction s as [| a s IH]; simpl; [reflexivity | now rewrite IH]. Qed.

Lemma substring_0_append (s t : string) :
  substring 0 (String.length s) (s ++ t) = s.
Proof.
  induction s as [| a s IH]; simpl.
  - destruct t; reflexivity.
  - now rewrite IH.
Qed.

Lemma append_inj_l (p s t : string) : p ++ s = p ++ t -> s = t.
Proof.
  induction p as [| a p IH]; simpl; intros E.
  - exact E.
  - injection E as E. exact (IH E).
Qed.

Lemma append_inj_r (s t u : string) : s ++ u = t ++ u -> s = t.
Proof.
  intros E.
  assert (L : String.length s = String.length t).
  { apply (f_equal String.length) in E. rewrite !length_append in E. lia. }
  rewrite <- (substring_0_append s u), <- (substring_0_append t u).
  now rewrite E, L.
Qed.

(** The collaboration is forty bytes longer than the answer it embeds. *)
Lemma otraFuncionUtilB_length (n : Variante) (a : ProductoAbstractoA) :
  String.length (otraFuncionUtilB (productoConcretoB n) a) =
  40 + String.length (funcionUtilA a tt).
Proof.
  destruct n;
    [rewrite otraFuncionUtilB_B1 | rewrite otraFuncionUtilB_B2];
    rewrite !length_append; simpl; lia.
Qed.

(** ** What the collaboration keeps of its collaborator *)

(** X1.  The answer of the collaborator can be read back from the
    collaboration of either B class: it is the substring that starts at byte
    39 and runs up to the closing parenthesis, which is the last byte. *)
Theorem otraFuncionUtilB_contiene_resultado
    (n : Variante) (a : ProductoAbstractoA) :
  let r := otraFuncionUtilB (productoConcretoB n) a in
  substring 39 (String.length r - 40) r = funcionUtilA a tt
  /\ substring (String.length r - 1) 1 r = ")".
Proof.
  cbv zeta. rewrite otraFuncionUtilB_length.
  replace (40 + String.length (funcionUtilA a tt) - 40)
    with (String.length (funcionUtilA a tt)) by lia.
  replace (40 + String.length (funcionUtilA a tt) - 1)
    with (39 + String.length (funcionUtilA a tt)) by lia.
  assert (fin : forall u : string,
             substring (String.length u) 1 (u ++ ")") = ")").
  { induction u as [| x u IH]; simpl; [reflexivity | exact IH]. }
  destruct n;
    [rewrite otraFuncionUtilB_B1 | rewrite otraFuncionUtilB_B2];
    generalize (funcionUtilA a tt) as s; intros s; simpl; split;
    solve [apply substring_0_append | apply fin].
Qed.

(** X2.  The collaboration tells its B class and the answer of its
    collaborator: two collaborations are equal only when they come from the
    same B class and from collaborators with the same answer. *)
Theorem otraFuncionUtilB_inyectiva
    (n m : Variante) (a1 a2 : ProductoAbstractoA)
    (H : otraFuncionUtilB (productoConcretoB n) a1 =
         otraFuncionUtilB (productoConcretoB m) a2) :
  n = m /\ funcionUtilA a1 tt = funcionUtilA a2 tt.
Proof.
  destruct n, m; simpl in H; try discriminate H; split; try reflexivity.
  - apply (append_inj_r _ _ ")").
    exact (append_inj_l "El resultado de B1 colaborando con el (" _ _ H).
  - apply (append_inj_r _ _ ")").
    exact (append_inj_l "El resultado de B2 colaborando con el (" _ _ H).
Qed.

(** An instance of X2 with collaborators of two classes. *)
Lemma otraFuncionUtilB_inyectiva_testigo :
  otraFuncionUtilB (productoConcretoB V2) ProductoConcretoA1 =
  otraFuncionUtilB (productoConcretoB V2) ProductoImitadorA
  /\ (V2 = V2
      /\ funcionUtilA ProductoConcretoA1 tt = funcionUtilA ProductoImitadorA tt).
Proof.
  split; [reflexivity |].
  apply (otraFuncionUtilB_inyectiva V2 V2 ProductoConcretoA1 ProductoImitadorA).
  reflexivity.
Defined.

(** ** The two lines of the client *)

(** X3.  When the factory creates a B product of one of the two B classes,
    whatever A product it creates, the client prints two different lines, and
    the second one is not the bare answer of the A product. *)
Theorem codigoCliente_lineas_distintas
    (fabrica : FabricaAbstracta) (m : Variante) (c : Consola.t)
    (H : crearProductoB fabrica tt = productoConcretoB m) :
  exists l1 l2 : string,
    salida (codigoCliente fabrica) c = [l1; l2]
    /\ l1 <> l2
    /\ l2 <> funcionUtilA (crearProductoA fabrica tt) tt.
Proof.
  rewrite codigoCliente_salida, H.
  do 2 eexists. split; [reflexivity | split].
  - destruct m; simpl; discriminate.
  - intros E. apply (f_equal String.length) in E.
    rewrite otraFuncionUtilB_length in E. lia.
Qed.

(** An instance of X3 on a factory that mixes the variants. *)
Lemma codigoCliente_lineas_distintas_testigo :
  crearProductoB (FabricaMixta V2 V1) tt = productoConcretoB V1
  /\ exists l1 l2 : string,
       salida (codigoCliente (FabricaMixta V2 V1)) [] = [l1; l2]
       /\ l1 <> l2
       /\ l2 <> funcionUtilA (crearProductoA (FabricaMixta V2 V1) tt) tt.
Proof.
  split; [reflexivity |].
  apply (codigoCliente_lineas_distintas (FabricaMixta V2 V1) V1 []).
  reflexivity.
Defined.
